(** * SQLQuery: the abstract SQL query class of LargeImageDatabaseITKIO

    A shallow embedding of [Source/itkSQLQuery.h] and
    [Source/itkSQLQuery.cxx]: the string escaper, the query-text setter,
    the typed parameter binders of the base class, the dispatch of a
    [vtkVariant] to the typed binders, and the transaction defaults.

    Methods of the class are functions in a small state-and-log monad:
    the state is the object ([this]), the log collects what
    [itkErrorMacro] and [vtkDebugMacro] print. Virtual methods that the
    dispatch calls through [this] are the fields of a driver interface,
    of which the base class is one instance. *)

From Stdlib Require Import String Ascii ZArith List Lia Bool.
Import ListNotations.

Local Open Scope string_scope.

(** ** Characters and C strings *)

(** The single quote, ['\''] in the source. *)
Definition QUOTE : ascii := "'"%char.

(** The terminator of a C string. *)
Definition NUL : ascii := "000"%char.

(** [std::string::empty]. *)
Definition empty (s : string) : bool :=
  match s with
  | EmptyString => true
  | String _ _ => false
  end.

(** [d += c] for a character [c]. *)
Definition push_back (d : string) (c : ascii) : string :=
  d ++ String c EmptyString.

(** [m_Query.compare(queryString)]: an [int] that is zero exactly when
    the two strings are equal; only its being zero or not is used. *)
Definition compare (a b : string) : Z :=
  match String.compare a b with
  | Eq => 0%Z
  | Lt => (-1)%Z
  | Gt => 1%Z
  end.

(** C's [!] on an [int], and the [bool] to [int] conversion that the
    comparison [!x == 0] applies to its left operand. *)
Definition lnot (x : Z) : bool := Z.eqb x 0.
Definition int_of_bool (b : bool) : Z := if b then 1%Z else 0%Z.

(** The character array behind a string, terminator included. *)
Definition c_str (s : string) : string := push_back s NUL.

(** [strlen]: the number of characters before the first terminator. *)
Fixpoint strlen (p : string) : nat :=
  match p with
  | EmptyString => 0
  | String c rest => if Ascii.eqb c NUL then 0 else S (strlen rest)
  end.

(** The characters of the C string stored at [p]. *)
Fixpoint string_at (p : string) : string :=
  match p with
  | EmptyString => EmptyString
  | String c rest =>
      if Ascii.eqb c NUL then EmptyString else String c (string_at rest)
  end.

(** [do { *cp1++ = *cp2++; } while ( --n );] for [n >= 1]: what the
    buffer [cp1] holds once [n] characters of [cp2] were copied. *)
Fixpoint copy_chars (n : nat) (cp2 : string) : string :=
  match n, cp2 with
  | S n', String c rest => String c (copy_chars n' rest)
  | _, _ => EmptyString
  end.

(** The number of single quotes of a string. *)
Fixpoint count_quotes (s : string) : nat :=
  match s with
  | EmptyString => 0
  | String c rest =>
      (if Ascii.eqb c QUOTE then 1 else 0) + count_quotes rest
  end.

(** ** EscapeString (itkSQLQuery.cxx, lines 52-74) *)

(** The [for] loop over the characters of [s], with the string [d]
    built so far. *)
Fixpoint EscapeString_loop (it : string) (d : string) : string :=
  match it with
  | EmptyString => d
  | String c rest =>
      let d := if Ascii.eqb c QUOTE then push_back d QUOTE else d in
      let d := push_back d c in
      EscapeString_loop rest d
  end.

Definition EscapeString (s : string) (addSurroundingQuotes : bool) : string :=
  let d := EmptyString in
  let d := if addSurroundingQuotes then push_back d QUOTE else d in
  let d := EscapeString_loop s d in
  let d := if addSurroundingQuotes then push_back d QUOTE else d in
  d.

(** The escaper as the specification words it: every single quote is
    emitted twice, every other character once, and one single quote is
    put before and after when asked for. *)
Fixpoint escape_chars (s : string) : string :=
  match s with
  | EmptyString => EmptyString
  | String c rest =>
      if Ascii.eqb c QUOTE
      then String QUOTE (String QUOTE (escape_chars rest))
      else String c (escape_chars rest)
  end.

Definition escape_spec (s : string) (addSurroundingQuotes : bool) : string :=
  if addSurroundingQuotes
  then String QUOTE (escape_chars s ++ String QUOTE EmptyString)
  else escape_chars s.

(** ** What the macros print *)

(** The type codes of a [vtkVariant] that the source names in its
    [switch], and any other code. *)
Inductive VtkType : Type :=
| VTK_STRING
| VTK_FLOAT
| VTK_DOUBLE
| VTK_CHAR
| VTK_UNSIGNED_CHAR
| VTK_SIGNED_CHAR
| VTK_SHORT
| VTK_UNSIGNED_SHORT
| VTK_INT
| VTK_UNSIGNED_INT
| VTK_LONG
| VTK_UNSIGNED_LONG
| VTK___INT64
| VTK_UNSIGNED___INT64
| VTK_LONG_LONG
| VTK_UNSIGNED_LONG_LONG
| VTK_OBJECT
| VTK_OTHER (code : Z).

(** One operand of a [<<] chain handed to a printing macro. *)
Inductive Piece : Type :=
| Str (s : string)
| TypeCode (t : VtkType)
| ThisPointer.

Definition Message : Type := list Piece.

(** One use of a printing macro. *)
Inductive LogEntry : Type :=
| Error (m : Message)
| Debugging (m : Message).

(** ** The monad of methods: the object, and what was printed *)

Record Outcome (St A : Type) : Type := mkOutcome {
  returned : A;
  object : St;
  printed : list LogEntry
}.

Arguments mkOutcome {St A} _ _ _.
Arguments returned {St A} _.
Arguments object {St A} _.
Arguments printed {St A} _.

Definition M (St A : Type) : Type := St -> Outcome St A.

Definition ret {St A} (a : A) : M St A :=
  fun this => mkOutcome a this [].

Definition bind {St A B} (m : M St A) (k : A -> M St B) : M St B :=
  fun this =>
    let r := m this in
    let r' := k (returned r) (object r) in
    mkOutcome (returned r') (object r') (printed r ++ printed r').

Definition get {St} : M St St :=
  fun this => mkOutcome this this [].

Declare Scope method_scope.
Delimit Scope method_scope with method.
Notation "x <- m ;; k" := (bind m (fun x => k))
  (at level 61, m at next level, right associativity) : method_scope.
Notation "m ;; k" := (bind m (fun _ => k))
  (at level 61, right associativity) : method_scope.
Local Open Scope method_scope.

(** Modelled from the spec: [itkErrorMacro], whose definition is not in
    the repository. An error is reported as the boolean outcome of the
    failing call plus an out-of-band diagnostic message, which is logged
    and not thrown as control flow (section 7). *)
Definition itkErrorMacro {St} (x : Message) : M St unit :=
  fun this => mkOutcome tt this [Error x].

(** The diagnostic of the typed binders and of ClearParameterBindings. *)
Definition NO_BOUND_PARAMETERS : Message :=
  [Str "This database driver does not support bound parameters."].

(** ** Values handed to the binders *)

(** A [float] and a [double] are only carried from the caller to a
    binder: they are kept as their IEEE-754 bit patterns. *)
Record c_float : Type := mk_float { float_bits : Z }.
Record c_double : Type := mk_double { double_bits : Z }.

(** The region behind a [const void *]. *)
Definition blob : Type := list Byte.byte.

(** ** The object *)

(** [SQLDatabase::Pointer]: [None] is [NULL]. *)
Definition DatabasePointer : Type := option nat.

(** The members of SQLQuery (itkSQLQuery.h, lines 203-205), after the two
    members of the object base class that the methods below read or
    write: the debug flag and the modification time. *)
Record SQLQuery : Type := mkSQLQuery {
  Debug : bool;
  MTime : nat;
  m_Query : string;
  m_Database : DatabasePointer;
  m_Active : bool
}.

Definition set_m_Query (q : string) : M SQLQuery unit :=
  fun this =>
    mkOutcome tt
      (mkSQLQuery (Debug this) (MTime this) q (m_Database this) (m_Active this))
      [].

Definition set_m_Database (db : DatabasePointer) : M SQLQuery unit :=
  fun this =>
    mkOutcome tt
      (mkSQLQuery (Debug this) (MTime this) (m_Query this) db (m_Active this))
      [].

(** [this->Modified()]: the modification time moves to a later stamp. *)
Definition Modified : M SQLQuery unit :=
  fun this =>
    mkOutcome tt
      (mkSQLQuery (Debug this) (S (MTime this)) (m_Query this)
                  (m_Database this) (m_Active this))
      [].

(** [vtkDebugMacro]: prints only when the object's debug flag is set. *)
Definition vtkDebugMacro (x : Message) : M SQLQuery unit :=
  fun this =>
    mkOutcome tt this (if Debug this then [Debugging x] else []).

(** The constructor (itkSQLQuery.cxx, lines 29-33), on top of an object
    base with the given debug flag and modification time; [m_Query] is
    default-constructed. *)
Definition SQLQuery_new (debug : bool) (mtime : nat) : SQLQuery :=
  mkSQLQuery debug mtime EmptyString None false.

(** [IsActive] (itkSQLQuery.h, line 83). *)
Definition IsActive : M SQLQuery bool :=
  this <- get ;; ret (m_Active this).

(** [BeginTransaction], [CommitTransaction], [RollbackTransaction]
    (itkSQLQuery.h, lines 95-97). *)
Definition BeginTransaction {St} : M St bool := ret true.
Definition CommitTransaction {St} : M St bool := ret true.
Definition RollbackTransaction {St} : M St bool := ret true.

(** Equality of two database pointers. *)
Definition same_pointer (a b : DatabasePointer) : bool :=
  match a, b with
  | None, None => true
  | Some x, Some y => Nat.eqb x y
  | _, _ => false
  end.

(** [vtkGetObjectMacro(Database, SQLDatabase)]. *)
Definition GetDatabase : M SQLQuery DatabasePointer :=
  this <- get ;; ret (m_Database this).

(** [vtkCxxSetObjectMacro(SQLQuery, Database, vtkSQLDatabase)]: a
    different pointer replaces the stored one and the object is marked
    modified; reference counts are not followed. *)
Definition SetDatabase (db : DatabasePointer) : M SQLQuery unit :=
  this <- get ;;
  if same_pointer (m_Database this) db
  then ret tt
  else set_m_Database db ;; Modified.

(** ** SetQuery and GetQuery (itkSQLQuery.cxx, lines 231-267) *)

(** The setter is the body of [vtkSetStringMacro], as its comment says:
    the member is bound to a fresh buffer which the copy loop then fills
    with the characters of [queryString] up to and with its terminator,
    so that afterwards the member reads as the C string in that buffer. *)
Definition SetQuery (queryString : string) : M SQLQuery bool :=
  this <- get ;;
  if empty (m_Query this) && empty queryString
  then ret true
  else
    if negb (empty (m_Query this)) && negb (empty queryString) &&
       Z.eqb (int_of_bool (lnot (compare (m_Query this) queryString))) 0
    then ret true (* "query string isn't changing" *)
    else
      (if negb (empty queryString)
       then
         let n := strlen (c_str queryString) + 1 in
         let cp2 := c_str queryString in
         set_m_Query (string_at (copy_chars n cp2))
       else set_m_Query EmptyString) ;;
      Modified ;;
      ret true.

(** [GetClassName], from [vtkTypeMacro(SQLQuery, vtkRowQuery)]. *)
Definition GetClassName : string := "SQLQuery".

(** The getter prints a trace when debugging is on and returns the
    member; the test [m_Query ? ... : ...] of the trace is read as the
    member holding a query. *)
Definition GetQuery : M SQLQuery string :=
  this <- get ;;
  vtkDebugMacro
    [Str GetClassName; Str " ("; ThisPointer;
     Str "): returning Query of ";
     Str (if negb (empty (m_Query this)) then m_Query this else "(null)")] ;;
  ret (m_Query this).

(** ** The virtual binders *)

(** The typed [BindParameter] overloads and [EscapeString] are virtual:
    a call through [this] runs the driver's override. One field per
    overload, named after the type of its value. *)
Class SQLQueryMethods (St : Type) : Type := {
  BindParameter_unsigned_char : Z -> Z -> M St bool;
  BindParameter_signed_char : Z -> Z -> M St bool;
  BindParameter_unsigned_short : Z -> Z -> M St bool;
  BindParameter_short : Z -> Z -> M St bool;
  BindParameter_unsigned_int : Z -> Z -> M St bool;
  BindParameter_int : Z -> Z -> M St bool;
  BindParameter_unsigned_long : Z -> Z -> M St bool;
  BindParameter_long : Z -> Z -> M St bool;
  BindParameter_UInt64 : Z -> Z -> M St bool;
  BindParameter_Int64 : Z -> Z -> M St bool;
  BindParameter_float : Z -> c_float -> M St bool;
  BindParameter_double : Z -> c_double -> M St bool;
  BindParameter_chars : Z -> string -> M St bool;
  BindParameter_chars_length : Z -> string -> N -> M St bool;
  BindParameter_string : Z -> string -> M St bool;
  BindParameter_blob : Z -> blob -> N -> M St bool;
  ClearParameterBindings : M St bool;
  EscapeString_virtual : string -> bool -> string
}.

(** The bodies of the base class (itkSQLQuery.cxx, lines 83-185). The
    arguments are [vtkNotUsed]. *)
Module Base.

Definition BindParameter_unsigned_char {St} (index value : Z) : M St bool :=
  itkErrorMacro NO_BOUND_PARAMETERS ;; ret false.

Definition BindParameter_signed_char {St} (index value : Z) : M St bool :=
  itkErrorMacro NO_BOUND_PARAMETERS ;; ret false.

Definition BindParameter_unsigned_short {St} (index value : Z) : M St bool :=
  itkErrorMacro NO_BOUND_PARAMETERS ;; ret false.

Definition BindParameter_short {St} (index value : Z) : M St bool :=
  itkErrorMacro NO_BOUND_PARAMETERS ;; ret false.

Definition BindParameter_unsigned_int {St} (index value : Z) : M St bool :=
  itkErrorMacro NO_BOUND_PARAMETERS ;; ret false.

Definition BindParameter_int {St} (index value : Z) : M St bool :=
  itkErrorMacro NO_BOUND_PARAMETERS ;; ret false.

Definition BindParameter_unsigned_long {St} (index value : Z) : M St bool :=
  itkErrorMacro NO_BOUND_PARAMETERS ;; ret false.

Definition BindParameter_long {St} (index value : Z) : M St bool :=
  itkErrorMacro NO_BOUND_PARAMETERS ;; ret false.

Definition BindParameter_UInt64 {St} (index value : Z) : M St bool :=
  itkErrorMacro NO_BOUND_PARAMETERS ;; ret false.

Definition BindParameter_Int64 {St} (index value : Z) : M St bool :=
  itkErrorMacro NO_BOUND_PARAMETERS ;; ret false.

Definition BindParameter_float {St} (index : Z) (value : c_float)
  : M St bool :=
  itkErrorMacro NO_BOUND_PARAMETERS ;; ret false.

Definition BindParameter_double {St} (index : Z) (value : c_double)
  : M St bool :=
  itkErrorMacro NO_BOUND_PARAMETERS ;; ret false.

Definition BindParameter_chars {St} (index : Z) (value : string)
  : M St bool :=
  itkErrorMacro NO_BOUND_PARAMETERS ;; ret false.

Definition BindParameter_chars_length {St} (index : Z) (value : string)
  (length : N) : M St bool :=
  itkErrorMacro NO_BOUND_PARAMETERS ;; ret false.

Definition BindParameter_string {St} (index : Z) (value : string)
  : M St bool :=
  itkErrorMacro NO_BOUND_PARAMETERS ;; ret false.

Definition BindParameter_blob {St} (index : Z) (value : blob) (length : N)
  : M St bool :=
  itkErrorMacro NO_BOUND_PARAMETERS ;; ret false.

Definition ClearParameterBindings {St} : M St bool :=
  itkErrorMacro NO_BOUND_PARAMETERS ;; ret false.

End Base.

(** The base class as a driver: nothing is overridden. *)
Definition BaseMethods (St : Type) : SQLQueryMethods St := {|
  BindParameter_unsigned_char := Base.BindParameter_unsigned_char;
  BindParameter_signed_char := Base.BindParameter_signed_char;
  BindParameter_unsigned_short := Base.BindParameter_unsigned_short;
  BindParameter_short := Base.BindParameter_short;
  BindParameter_unsigned_int := Base.BindParameter_unsigned_int;
  BindParameter_int := Base.BindParameter_int;
  BindParameter_unsigned_long := Base.BindParameter_unsigned_long;
  BindParameter_long := Base.BindParameter_long;
  BindParameter_UInt64 := Base.BindParameter_UInt64;
  BindParameter_Int64 := Base.BindParameter_Int64;
  BindParameter_float := Base.BindParameter_float;
  BindParameter_double := Base.BindParameter_double;
  BindParameter_chars := Base.BindParameter_chars;
  BindParameter_chars_length := Base.BindParameter_chars_length;
  BindParameter_string := Base.BindParameter_string;
  BindParameter_blob := Base.BindParameter_blob;
  ClearParameterBindings := Base.ClearParameterBindings;
  EscapeString_virtual := EscapeString
|}.

(** The second [EscapeString] (itkSQLQuery.cxx, lines 76-81) copies its
    argument and calls the virtual one. *)
Definition EscapeString_wrapper {St} `{SQLQueryMethods St}
  (src : string) (addSurroundingQuotes : bool) : string :=
  let sstr := src in
  let dstr := EscapeString_virtual sstr addSurroundingQuotes in
  dstr.

(** ** The dynamic value *)

(** [vtkVariant] is VTK's class; the dispatch uses its validity test,
    its type code and one accessor per kind, which is all this interface
    asks of it. *)
Class VariantInterface (V : Type) : Type := {
  IsValid : V -> bool;
  GetType : V -> VtkType;
  ToString : V -> string;
  ToFloat : V -> c_float;
  ToDouble : V -> c_double;
  ToChar : V -> Z;
  ToUnsignedChar : V -> Z;
  ToSignedChar : V -> Z;
  ToShort : V -> Z;
  ToUnsignedShort : V -> Z;
  ToInt : V -> Z;
  ToUnsignedInt : V -> Z;
  ToLong : V -> Z;
  ToUnsignedLong : V -> Z;
  To__Int64 : V -> Z;
  ToUnsigned__Int64 : V -> Z;
  ToLongLong : V -> Z;
  ToUnsignedLongLong : V -> Z
}.

(** The two configuration macros that guard arms of the [switch]. *)
Record Configuration : Type := mkConfiguration {
  VTK_TYPE_USE___INT64 : bool;
  VTK_TYPE_USE_LONG_LONG : bool
}.

(** ** BindParameter(int, vtkVariant) (itkSQLQuery.cxx, lines 187-227) *)

Definition OBJECT_VARIANT : Message :=
  [Str "Variants of type VTK_OBJECT cannot be inserted into a database."].

Definition UNSUPPORTED_VARIANT (t : VtkType) : Message :=
  [Str "Variants of type "; TypeCode t;
   Str " are not currently supported by BindParameter."].

(** The [default:] arm. *)
Definition BindParameter_default {St V} `{VariantInterface V} (data : V)
  : M St bool :=
  itkErrorMacro (UNSUPPORTED_VARIANT (GetType data)) ;; ret false.

(** Each [case] calls [this->BindParameter(index, data.Function())]; the
    overload is the one of the accessor's return type. No overload takes
    a plain [char], so the value of [ToChar] is promoted to [int]. *)
Definition BindParameter_variant {St V}
  `{SQLQueryMethods St} `{VariantInterface V}
  (cfg : Configuration) (index : Z) (data : V) : M St bool :=
  if negb (IsValid data)
  then ret true (* binding nulls is a no-op *)
  else
    match GetType data with
    | VTK_STRING => BindParameter_string index (ToString data)
    | VTK_FLOAT => BindParameter_float index (ToFloat data)
    | VTK_DOUBLE => BindParameter_double index (ToDouble data)
    | VTK_CHAR => BindParameter_int index (ToChar data)
    | VTK_UNSIGNED_CHAR =>
        BindParameter_unsigned_char index (ToUnsignedChar data)
    | VTK_SIGNED_CHAR => BindParameter_signed_char index (ToSignedChar data)
    | VTK_SHORT => BindParameter_short index (ToShort data)
    | VTK_UNSIGNED_SHORT =>
        BindParameter_unsigned_short index (ToUnsignedShort data)
    | VTK_INT => BindParameter_int index (ToInt data)
    | VTK_UNSIGNED_INT =>
        BindParameter_unsigned_int index (ToUnsignedInt data)
    | VTK_LONG => BindParameter_long index (ToLong data)
    | VTK_UNSIGNED_LONG =>
        BindParameter_unsigned_long index (ToUnsignedLong data)
    | VTK___INT64 =>
        if VTK_TYPE_USE___INT64 cfg
        then BindParameter_Int64 index (To__Int64 data)
        else BindParameter_default data
    | VTK_UNSIGNED___INT64 =>
        if VTK_TYPE_USE___INT64 cfg
        then BindParameter_UInt64 index (ToUnsigned__Int64 data)
        else BindParameter_default data
    | VTK_LONG_LONG =>
        if VTK_TYPE_USE_LONG_LONG cfg
        then BindParameter_Int64 index (ToLongLong data)
        else BindParameter_default data
    | VTK_UNSIGNED_LONG_LONG =>
        if VTK_TYPE_USE_LONG_LONG cfg
        then BindParameter_UInt64 index (ToUnsignedLongLong data)
        else BindParameter_default data
    | VTK_OBJECT => itkErrorMacro OBJECT_VARIANT ;; ret false
    | VTK_OTHER _ => BindParameter_default data
    end.

(** The kinds that reach a typed binder under a configuration. *)
Definition has_arm (cfg : Configuration) (t : VtkType) : bool :=
  match t with
  | VTK___INT64 | VTK_UNSIGNED___INT64 => VTK_TYPE_USE___INT64 cfg
  | VTK_LONG_LONG | VTK_UNSIGNED_LONG_LONG => VTK_TYPE_USE_LONG_LONG cfg
  | VTK_OBJECT | VTK_OTHER _ => false
  | _ => true
  end.

(** ** Typed values and the overload they select *)

(** The argument list of one typed [BindParameter] overload, after the
    index: one constructor per overload of the header. *)
Inductive Argument : Type :=
| arg_unsigned_char (value : Z)
| arg_signed_char (value : Z)
| arg_unsigned_short (value : Z)
| arg_short (value : Z)
| arg_unsigned_int (value : Z)
| arg_int (value : Z)
| arg_unsigned_long (value : Z)
| arg_long (value : Z)
| arg_UInt64 (value : Z)
| arg_Int64 (value : Z)
| arg_float (value : c_float)
| arg_double (value : c_double)
| arg_chars (stringValue : string)
| arg_chars_length (stringValue : string) (length : N)
| arg_string (value : string)
| arg_blob (data : blob) (length : N).

(** A call [this->BindParameter(index, ...)] with that argument list. *)
Definition BindParameter {St} `{SQLQueryMethods St}
  (index : Z) (a : Argument) : M St bool :=
  match a with
  | arg_unsigned_char v => BindParameter_unsigned_char index v
  | arg_signed_char v => BindParameter_signed_char index v
  | arg_unsigned_short v => BindParameter_unsigned_short index v
  | arg_short v => BindParameter_short index v
  | arg_unsigned_int v => BindParameter_unsigned_int index v
  | arg_int v => BindParameter_int index v
  | arg_unsigned_long v => BindParameter_unsigned_long index v
  | arg_long v => BindParameter_long index v
  | arg_UInt64 v => BindParameter_UInt64 index v
  | arg_Int64 v => BindParameter_Int64 index v
  | arg_float v => BindParameter_float index v
  | arg_double v => BindParameter_double index v
  | arg_chars s => BindParameter_chars index s
  | arg_chars_length s n => BindParameter_chars_length index s n
  | arg_string s => BindParameter_string index s
  | arg_blob b n => BindParameter_blob index b n
  end.

(** A value of one of the primitive types a variant can hold. *)
Inductive Primitive : Type :=
| of_string (v : string)
| of_float (v : c_float)
| of_double (v : c_double)
| of_char (v : Z)
| of_unsigned_char (v : Z)
| of_signed_char (v : Z)
| of_short (v : Z)
| of_unsigned_short (v : Z)
| of_int (v : Z)
| of_unsigned_int (v : Z)
| of_long (v : Z)
| of_unsigned_long (v : Z)
| of___int64 (v : Z)
| of_unsigned___int64 (v : Z)
| of_long_long (v : Z)
| of_unsigned_long_long (v : Z).

(** The type code under which a variant holds such a value. *)
Definition kind_of (v : Primitive) : VtkType :=
  match v with
  | of_string _ => VTK_STRING
  | of_float _ => VTK_FLOAT
  | of_double _ => VTK_DOUBLE
  | of_char _ => VTK_CHAR
  | of_unsigned_char _ => VTK_UNSIGNED_CHAR
  | of_signed_char _ => VTK_SIGNED_CHAR
  | of_short _ => VTK_SHORT
  | of_unsigned_short _ => VTK_UNSIGNED_SHORT
  | of_int _ => VTK_INT
  | of_unsigned_int _ => VTK_UNSIGNED_INT
  | of_long _ => VTK_LONG
  | of_unsigned_long _ => VTK_UNSIGNED_LONG
  | of___int64 _ => VTK___INT64
  | of_unsigned___int64 _ => VTK_UNSIGNED___INT64
  | of_long_long _ => VTK_LONG_LONG
  | of_unsigned_long_long _ => VTK_UNSIGNED_LONG_LONG
  end.

(** The typed call as the specification words it, [bind(i, v)] for a
    value [v] of primitive type [T]: the overload that C++ selects for
    an argument of that type. Every type but plain [char] has an
    overload of its own (the 64-bit types are the 64-bit typedefs of the
    toolkit); plain [char] is promoted to [int]. *)
Definition argument_of (v : Primitive) : Argument :=
  match v with
  | of_string s => arg_string s
  | of_float f => arg_float f
  | of_double d => arg_double d
  | of_char c => arg_int c
  | of_unsigned_char z => arg_unsigned_char z
  | of_signed_char z => arg_signed_char z
  | of_short z => arg_short z
  | of_unsigned_short z => arg_unsigned_short z
  | of_int z => arg_int z
  | of_unsigned_int z => arg_unsigned_int z
  | of_long z => arg_long z
  | of_unsigned_long z => arg_unsigned_long z
  | of___int64 z => arg_Int64 z
  | of_unsigned___int64 z => arg_UInt64 z
  | of_long_long z => arg_Int64 z
  | of_unsigned_long_long z => arg_UInt64 z
  end.

Definition bind_typed_spec {St} `{SQLQueryMethods St}
  (index : Z) (v : Primitive) : M St bool :=
  BindParameter index (argument_of v).

(** [data] is the variant of [v]: valid, of the kind of [v], and its
    accessor for that kind gives [v] back. *)
Definition variant_of {V} `{VariantInterface V} (data : V) (v : Primitive)
  : Prop :=
  IsValid data = true /\
  GetType data = kind_of v /\
  match v with
  | of_string s => ToString data = s
  | of_float f => ToFloat data = f
  | of_double d => ToDouble data = d
  | of_char c => ToChar data = c
  | of_unsigned_char z => ToUnsignedChar data = z
  | of_signed_char z => ToSignedChar data = z
  | of_short z => ToShort data = z
  | of_unsigned_short z => ToUnsignedShort data = z
  | of_int z => ToInt data = z
  | of_unsigned_int z => ToUnsignedInt data = z
  | of_long z => ToLong data = z
  | of_unsigned_long z => ToUnsignedLong data = z
  | of___int64 z => To__Int64 data = z
  | of_unsigned___int64 z => ToUnsigned__Int64 data = z
  | of_long_long z => ToLongLong data = z
  | of_unsigned_long_long z => ToUnsignedLongLong data = z
  end.

(** ** A variant to run the dispatch on *)

(** An instance of the interface, to run the dispatch on concrete
    values; the class itself is VTK's and its source is not in the
    repository. It has the kinds that the [switch] names: the no-value
    marker, a value of one of the primitive types, an object reference,
    or a kind of some other type code. An accessor gives the held value
    on a variant of its own kind; on any other kind VTK converts, which
    the dispatch never asks for and this instance answers with zero or
    the empty string. *)
Inductive vtkVariant : Type :=
| Invalid
| Holding (v : Primitive)
| ObjectReference (address : nat)
| OtherKind (code : Z).

Definition vtkVariant_IsValid (data : vtkVariant) : bool :=
  match data with
  | Invalid => false
  | _ => true
  end.

Definition vtkVariant_GetType (data : vtkVariant) : VtkType :=
  match data with
  | Invalid => VTK_OTHER 0
  | Holding v => kind_of v
  | ObjectReference _ => VTK_OBJECT
  | OtherKind code => VTK_OTHER code
  end.

Definition no_float : c_float := mk_float 0.
Definition no_double : c_double := mk_double 0.

#[export] Instance vtkVariant_interface : VariantInterface vtkVariant := {|
  IsValid := vtkVariant_IsValid;
  GetType := vtkVariant_GetType;
  ToString d := match d with Holding (of_string s) => s | _ => EmptyString end;
  ToFloat d := match d with Holding (of_float f) => f | _ => no_float end;
  ToDouble d := match d with Holding (of_double f) => f | _ => no_double end;
  ToChar d := match d with Holding (of_char z) => z | _ => 0%Z end;
  ToUnsignedChar d :=
    match d with Holding (of_unsigned_char z) => z | _ => 0%Z end;
  ToSignedChar d :=
    match d with Holding (of_signed_char z) => z | _ => 0%Z end;
  ToShort d := match d with Holding (of_short z) => z | _ => 0%Z end;
  ToUnsignedShort d :=
    match d with Holding (of_unsigned_short z) => z | _ => 0%Z end;
  ToInt d := match d with Holding (of_int z) => z | _ => 0%Z end;
  ToUnsignedInt d :=
    match d with Holding (of_unsigned_int z) => z | _ => 0%Z end;
  ToLong d := match d with Holding (of_long z) => z | _ => 0%Z end;
  ToUnsignedLong d :=
    match d with Holding (of_unsigned_long z) => z | _ => 0%Z end;
  To__Int64 d := match d with Holding (of___int64 z) => z | _ => 0%Z end;
  ToUnsigned__Int64 d :=
    match d with Holding (of_unsigned___int64 z) => z | _ => 0%Z end;
  ToLongLong d := match d with Holding (of_long_long z) => z | _ => 0%Z end;
  ToUnsignedLongLong d :=
    match d with Holding (of_unsigned_long_long z) => z | _ => 0%Z end
|}.

(** ** A driver that binds *)

(** The bound parameter set of a driver that keeps what it is given
    (section 3), for running the dispatch against overrides that do
    something: every typed binder appends its binding and succeeds. *)
Definition Bindings : Type := list (Z * Argument).

Definition keep (index : Z) (a : Argument) : M Bindings bool :=
  fun this => mkOutcome true (this ++ [(index, a)])%list [].

Definition KeepingDriver : SQLQueryMethods Bindings := {|
  BindParameter_unsigned_char i v := keep i (arg_unsigned_char v);
  BindParameter_signed_char i v := keep i (arg_signed_char v);
  BindParameter_unsigned_short i v := keep i (arg_unsigned_short v);
  BindParameter_short i v := keep i (arg_short v);
  BindParameter_unsigned_int i v := keep i (arg_unsigned_int v);
  BindParameter_int i v := keep i (arg_int v);
  BindParameter_unsigned_long i v := keep i (arg_unsigned_long v);
  BindParameter_long i v := keep i (arg_long v);
  BindParameter_UInt64 i v := keep i (arg_UInt64 v);
  BindParameter_Int64 i v := keep i (arg_Int64 v);
  BindParameter_float i v := keep i (arg_float v);
  BindParameter_double i v := keep i (arg_double v);
  BindParameter_chars i s := keep i (arg_chars s);
  BindParameter_chars_length i s n := keep i (arg_chars_length s n);
  BindParameter_string i s := keep i (arg_string s);
  BindParameter_blob i b n := keep i (arg_blob b n);
  ClearParameterBindings := fun _ => mkOutcome true [] [];
  EscapeString_virtual := EscapeString
|}.

(** ** Sequences of calls on a base-class object *)

(** One call of a method that the base class implements. [Execute] is
    pure virtual and has no body there. *)
Inductive Call (V : Type) : Type :=
| call_SetQuery (query : string)
| call_GetQuery
| call_IsActive
| call_BeginTransaction
| call_CommitTransaction
| call_RollbackTransaction
| call_GetDatabase
| call_SetDatabase (db : DatabasePointer)
| call_BindParameter (index : Z) (a : Argument)
| call_BindParameter_variant (index : Z) (data : V)
| call_ClearParameterBindings
| call_EscapeString (s : string) (addSurroundingQuotes : bool)
| call_EscapeString_wrapper (src : string) (addSurroundingQuotes : bool).

Arguments call_SetQuery {V} _.
Arguments call_GetQuery {V}.
Arguments call_IsActive {V}.
Arguments call_BeginTransaction {V}.
Arguments call_CommitTransaction {V}.
Arguments call_RollbackTransaction {V}.
Arguments call_GetDatabase {V}.
Arguments call_SetDatabase {V} _.
Arguments call_BindParameter {V} _ _.
Arguments call_BindParameter_variant {V} _ _.
Arguments call_ClearParameterBindings {V}.
Arguments call_EscapeString {V} _ _.
Arguments call_EscapeString_wrapper {V} _ _.

(** Forget what a method returned. *)
Definition ignore {St A} (m : M St A) : M St unit :=
  m ;; ret tt.

(** The call on an object whose class overrides nothing. *)
Definition perform {V} `{VariantInterface V} (cfg : Configuration)
  (c : Call V) : M SQLQuery unit :=
  let base := BaseMethods SQLQuery in
  match c with
  | call_SetQuery query => ignore (SetQuery query)
  | call_GetQuery => ignore GetQuery
  | call_IsActive => ignore IsActive
  | call_BeginTransaction => ignore BeginTransaction
  | call_CommitTransaction => ignore CommitTransaction
  | call_RollbackTransaction => ignore RollbackTransaction
  | call_GetDatabase => ignore GetDatabase
  | call_SetDatabase db => SetDatabase db
  | call_BindParameter index a => ignore (BindParameter index a)
  | call_BindParameter_variant index data =>
      ignore (BindParameter_variant cfg index data)
  | call_ClearParameterBindings => ignore ClearParameterBindings
  | call_EscapeString s q => ignore (ret (EscapeString_virtual s q))
  | call_EscapeString_wrapper src q =>
      ignore (ret (EscapeString_wrapper src q))
  end.

Fixpoint perform_all {V} `{VariantInterface V} (cfg : Configuration)
  (cs : list (Call V)) : M SQLQuery unit :=
  match cs with
  | [] => ret tt
  | c :: rest => perform cfg c ;; perform_all cfg rest
  end.

(** The outcome of a base-class binder: failure, the object as it was,
    and the one diagnostic. *)
Definition unsupported {St} (this : St) : Outcome St bool :=
  mkOutcome false this [Error NO_BOUND_PARAMETERS].

(** The diagnostic of the dispatch for a kind that reaches no typed
    binder: the one of the [VTK_OBJECT] arm, or the one of [default:]. *)
Definition no_mapping_diagnostic (t : VtkType) : Message :=
  match t with
  | VTK_OBJECT => OBJECT_VARIANT
  | _ => UNSUPPORTED_VARIANT t
  end.

(** The object after a call that stored [q] and marked it modified. *)
Definition stored (q : string) (this : SQLQuery) : SQLQuery :=
  mkSQLQuery (Debug this) (S (MTime this)) q (m_Database this) (m_Active this).

(** ** Predicates on strings and calls used to state properties *)

(** No terminator inside: the string is a C string as it stands. *)
Fixpoint nul_free (s : string) : bool :=
  match s with
  | EmptyString => true
  | String c rest => negb (Ascii.eqb c NUL) && nul_free rest
  end.

(** Every single quote stands in a pair of adjacent single quotes, the
    pairs read from the left. *)
Fixpoint paired_quotes (s : string) : bool :=
  match s with
  | EmptyString => true
  | String c rest =>
      if Ascii.eqb c QUOTE
      then
        match rest with
        | EmptyString => false
        | String c' rest' => Ascii.eqb c' QUOTE && paired_quotes rest'
        end
      else paired_quotes rest
  end.

(** The calls that can write a member: the two setters. *)
Definition is_SetDatabase {V} (c : Call V) : bool :=
  match c with
  | call_SetDatabase _ => true
  | _ => false
  end.

Definition is_setter {V} (c : Call V) : bool :=
  match c with
  | call_SetQuery _ | call_SetDatabase _ => true
  | _ => false
  end.

(** The one diagnostic of the dispatch on an object that overrides
    nothing, by the kind of a valid variant. *)
Definition base_dispatch_diagnostic (cfg : Configuration) (t : VtkType)
  : Message :=
  if has_arm cfg t then NO_BOUND_PARAMETERS else no_mapping_diagnostic t.

(** * Properties *)

(** ** Strings *)

Section StringFacts.

Lemma append_empty_r (s : string) : s ++ EmptyString = s.
Proof.
  induction s as [|c s IH]; simpl; [reflexivity | now rewrite IH].
Qed.

Lemma append_assoc (a b c : string) : (a ++ b) ++ c = a ++ (b ++ c).
Proof.
  induction a as [|x a IH]; simpl; [reflexivity | now rewrite IH].
Qed.

Lemma length_append (a b : string) :
  String.length (a ++ b) = String.length a + String.length b.
Proof.
  induction a as [|x a IH]; simpl; [reflexivity | now rewrite IH].
Qed.

Lemma count_quotes_append (a b : string) :
  count_quotes (a ++ b) = count_quotes a + count_quotes b.
Proof.
  induction a as [|x a IH]; simpl; [reflexivity | rewrite IH; lia].
Qed.

End StringFacts.

(** ** The escaper *)

(** The loop appends the escaped characters to what was built before. *)
Lemma EscapeString_loop_spec (s d : string) :
  EscapeString_loop s d = d ++ escape_chars s.
Proof.
  revert d; induction s as [|c s IH]; intro d; simpl.
  - now rewrite append_empty_r.
  - rewrite IH. unfold push_back.
    destruct (Ascii.eqb c QUOTE) eqn:E.
    + apply Ascii.eqb_eq in E; subst c.
      now rewrite !append_assoc.
    + now rewrite append_assoc.
Qed.

Lemma EscapeString_refines (s : string) (q : bool) :
  EscapeString s q = escape_spec s q.
Proof.
  unfold EscapeString, escape_spec.
  rewrite EscapeString_loop_spec.
  destruct q; unfold push_back; simpl; reflexivity.
Qed.

Lemma EscapeString_unquoted (s : string) :
  EscapeString s false = escape_chars s.
Proof. now rewrite EscapeString_refines. Qed.

Lemma count_quotes_escape_chars (s : string) :
  count_quotes (escape_chars s) = 2 * count_quotes s.
Proof.
  induction s as [|c s IH]; simpl; [reflexivity|].
  destruct (Ascii.eqb c QUOTE) eqn:E; simpl.
  - rewrite IH. change (Ascii.eqb QUOTE QUOTE) with true. lia.
  - rewrite E, IH. lia.
Qed.

Lemma length_escape_chars (s : string) :
  String.length (escape_chars s) = String.length s + count_quotes s.
Proof.
  induction s as [|c s IH]; simpl; [reflexivity|].
  destruct (Ascii.eqb c QUOTE); simpl; rewrite IH; lia.
Qed.

Lemma escape_chars_quote_free (s : string) :
  count_quotes s = 0 -> escape_chars s = s.
Proof.
  induction s as [|c s IH]; simpl; [reflexivity|].
  destruct (Ascii.eqb c QUOTE); simpl; intro H; [discriminate|].
  now rewrite IH.
Qed.

(** An escaped string is the string itself only when nothing was doubled. *)
Lemma escape_chars_fixed_point (s : string) :
  escape_chars s = s <-> count_quotes s = 0.
Proof.
  split; [|apply escape_chars_quote_free].
  intro H. apply (f_equal String.length) in H.
  rewrite length_escape_chars in H. lia.
Qed.

(** C4: for every string [s] and flag [q], [EscapeString s q] is [s]
    scanned left to right with every single quote emitted twice and every
    other character once, between two added single quotes when [q] is
    true; the three examples of the specification evaluate as stated. The
    result is a function of [s] and [q] alone. *)
Theorem EscapeString_correct :
  (forall (s : string) (q : bool), EscapeString s q = escape_spec s q) /\
  EscapeString "O'Brien" true = "'O''Brien'" /\
  EscapeString "abc" false = "abc" /\
  EscapeString EmptyString true = "''".
Proof.
  split; [exact EscapeString_refines|].
  repeat split; reflexivity.
Qed.

(** C7: without surrounding quotes the escaper returns a quote-free
    string unchanged; on a string with [k > 0] single quotes it returns
    one with [2k], and escaping that again gives [4k]. It is idempotent,
    and leaves its argument as it is, exactly on quote-free strings. *)
Theorem EscapeString_reescaping (s : string) (k : nat) :
  count_quotes s = k ->
  (k = 0 -> EscapeString s false = s) /\
  (0 < k ->
   count_quotes (EscapeString s false) = 2 * k /\
   count_quotes (EscapeString (EscapeString s false) false) = 4 * k) /\
  (EscapeString s false = s <-> k = 0) /\
  (EscapeString (EscapeString s false) false = EscapeString s false
   <-> k = 0).
Proof.
  intro Hk. rewrite !EscapeString_unquoted.
  repeat split.
  - intro H0. apply escape_chars_quote_free. congruence.
  - rewrite count_quotes_escape_chars. lia.
  - rewrite !count_quotes_escape_chars. lia.
  - intro H. apply escape_chars_fixed_point in H. congruence.
  - intro H0. apply escape_chars_quote_free. congruence.
  - intro H. apply escape_chars_fixed_point in H.
    rewrite count_quotes_escape_chars in H. lia.
  - intro H0. apply escape_chars_quote_free.
    rewrite count_quotes_escape_chars. lia.
Qed.

Lemma EscapeString_reescaping_witness :
  count_quotes "O'Brien" = 1 /\
  count_quotes (EscapeString "O'Brien" false) = 2 /\
  count_quotes (EscapeString (EscapeString "O'Brien" false) false) = 4.
Proof.
  split; [reflexivity|].
  destruct (EscapeString_reescaping "O'Brien" 1 eq_refl) as [_ [H _]].
  apply H. lia.
Defined.

(** ** The query text *)

Lemma string_compare_refl (s : string) : String.compare s s = Eq.
Proof.
  induction s as [|c s IH]; simpl; [reflexivity|].
  unfold Ascii.compare. now rewrite N.compare_refl.
Qed.

(** [compare] is zero exactly on equal strings. *)
Lemma compare_zero_iff (a b : string) : compare a b = 0%Z <-> a = b.
Proof.
  unfold compare; split.
  - destruct (String.compare a b) eqn:E; try discriminate.
    intros _. now apply String.compare_eq_iff.
  - intros ->. now rewrite string_compare_refl.
Qed.

(** The guard of the second early return, [!m_Query.compare(q) == 0],
    holds exactly when the two strings differ: [!] applies to the result
    of [compare] before [==] compares with zero. *)
Lemma unchanged_guard_iff (a b : string) :
  Z.eqb (int_of_bool (lnot (compare a b))) 0 = true <-> a <> b.
Proof.
  unfold lnot, int_of_bool.
  destruct (Z.eqb (compare a b) 0) eqn:E; simpl.
  - apply Z.eqb_eq, compare_zero_iff in E. split; [discriminate | tauto].
  - split; [|reflexivity]. intros _ H.
    apply compare_zero_iff in H. rewrite H in E. discriminate.
Qed.

(** The copy loop moves the C string of the argument into the buffer. *)
Lemma copy_chars_c_str (q : string) :
  string_at (copy_chars (strlen (c_str q) + 1) (c_str q)) = string_at q.
Proof.
  unfold c_str, push_back.
  induction q as [|c q IH]; simpl; [reflexivity|].
  destruct (Ascii.eqb c NUL) eqn:E; simpl; rewrite E; [reflexivity|].
  now rewrite IH.
Qed.

(** A string without a terminator inside is its own C string. *)
Lemma string_at_id (q : string) : strlen q = String.length q -> string_at q = q.
Proof.
  induction q as [|c q IH]; simpl; [reflexivity|].
  destruct (Ascii.eqb c NUL); [discriminate|].
  intro H. injection H as H. now rewrite IH.
Qed.

(** What [SetQuery] does, by cases on the old and the new text. *)
Lemma SetQuery_cases (q : string) (this : SQLQuery) :
  SetQuery q this =
  if empty (m_Query this) && empty q then mkOutcome true this []
  else if negb (empty (m_Query this)) && negb (empty q) &&
          negb (String.eqb (m_Query this) q)
       then mkOutcome true this []
       else mkOutcome true (stored (string_at q) this) [].
Proof.
  unfold SetQuery, bind, get; simpl.
  destruct (empty (m_Query this) && empty q) eqn:E1; [reflexivity|].
  assert (G : Z.eqb (int_of_bool (lnot (compare (m_Query this) q))) 0
              = negb (String.eqb (m_Query this) q)).
  { destruct (String.eqb (m_Query this) q) eqn:E; simpl.
    - apply String.eqb_eq in E.
      destruct (Z.eqb _ 0) eqn:F; [|reflexivity].
      apply unchanged_guard_iff in F. contradiction.
    - apply String.eqb_neq in E. now apply unchanged_guard_iff. }
  rewrite G.
  destruct (negb (empty (m_Query this)) && negb (empty q) &&
            negb (String.eqb (m_Query this) q)); [reflexivity|].
  destruct q as [|c q]; simpl; [reflexivity|].
  unfold stored. f_equal. f_equal.
  apply (copy_chars_c_str (String c q)).
Qed.



(** A first text, or the empty text over a stored one: it is stored. *)
Lemma SetQuery_one_empty (q : string) (this : SQLQuery) :
  empty (m_Query this) = negb (empty q) ->
  SetQuery q this = mkOutcome true (stored (string_at q) this) [].
Proof.
  intros H. rewrite SetQuery_cases.
  destruct (empty (m_Query this)), (empty q); simpl in *;
    try discriminate; reflexivity.
Qed.

Example SetQuery_first_text :
  SetQuery "SELECT 1" (SQLQuery_new false 0)
  = mkOutcome true (mkSQLQuery false 1 "SELECT 1" None false) [].
Proof. reflexivity. Qed.

Example SetQuery_twice_empty :
  SetQuery EmptyString (object (SetQuery EmptyString (SQLQuery_new false 0)))
  = mkOutcome true (SQLQuery_new false 0) [].
Proof. reflexivity. Qed.

Example SetQuery_clears :
  SetQuery EmptyString (mkSQLQuery false 1 "SELECT 1" None false)
  = mkOutcome true (mkSQLQuery false 2 EmptyString None false) [].
Proof. reflexivity. Qed.

Example SetQuery_same_text_again :
  SetQuery "SELECT 1" (mkSQLQuery false 1 "SELECT 1" None false)
  = mkOutcome true (mkSQLQuery false 2 "SELECT 1" None false) [].
Proof. reflexivity. Qed.

(** C1: [SetQuery] on a stored non-empty text and a different non-empty
    new text reports success and leaves the stored text in place, so that
    [GetQuery] afterwards returns the old text and not the new one. *)
Theorem SetQuery_drops_differing_text :
  SetQuery "SELECT 2" (mkSQLQuery false 0 "SELECT 1" None false) =
    mkOutcome true (mkSQLQuery false 0 "SELECT 1" None false) [] /\
  returned
    (GetQuery
       (object (SetQuery "SELECT 2" (mkSQLQuery false 0 "SELECT 1" None false))))
  = "SELECT 1".
Proof. split; reflexivity. Qed.

(** C9: [SetQuery] returns true for every object and every text. *)
Theorem SetQuery_never_fails (q : string) (this : SQLQuery) :
  returned (SetQuery q this) = true.
Proof.
  rewrite SetQuery_cases.
  destruct (empty (m_Query this) && empty q); [reflexivity|].
  destruct (negb (empty (m_Query this)) && negb (empty q) &&
            negb (String.eqb (m_Query this) q)); reflexivity.
Qed.

(** ** The typed binders and the transactions of the base class *)

(** C3: in the base class every typed [BindParameter] overload, for every
    index and value, and [ClearParameterBindings] return false, print the
    one diagnostic that the driver does not support bound parameters, and
    leave the object as it was; so does a call resolved to any of the
    overloads through an object that overrides nothing. *)
Theorem base_binders_unsupported (St : Type) (this : St) (index : Z) :
  (forall v, Base.BindParameter_unsigned_char index v this = unsupported this) /\
  (forall v, Base.BindParameter_signed_char index v this = unsupported this) /\
  (forall v, Base.BindParameter_unsigned_short index v this = unsupported this) /\
  (forall v, Base.BindParameter_short index v this = unsupported this) /\
  (forall v, Base.BindParameter_unsigned_int index v this = unsupported this) /\
  (forall v, Base.BindParameter_int index v this = unsupported this) /\
  (forall v, Base.BindParameter_unsigned_long index v this = unsupported this) /\
  (forall v, Base.BindParameter_long index v this = unsupported this) /\
  (forall v, Base.BindParameter_UInt64 index v this = unsupported this) /\
  (forall v, Base.BindParameter_Int64 index v this = unsupported this) /\
  (forall v, Base.BindParameter_float index v this = unsupported this) /\
  (forall v, Base.BindParameter_double index v this = unsupported this) /\
  (forall s, Base.BindParameter_chars index s this = unsupported this) /\
  (forall s n,
     Base.BindParameter_chars_length index s n this = unsupported this) /\
  (forall s, Base.BindParameter_string index s this = unsupported this) /\
  (forall b n, Base.BindParameter_blob index b n this = unsupported this) /\
  Base.ClearParameterBindings this = unsupported this /\
  (forall a,
     BindParameter (H := BaseMethods St) index a this = unsupported this) /\
  ClearParameterBindings (SQLQueryMethods := BaseMethods St) this
  = unsupported this.
Proof.
  repeat split; try reflexivity.
  intros a; destruct a; reflexivity.
Qed.

(** C8: in the base class [BeginTransaction], [CommitTransaction] and
    [RollbackTransaction] return true, print nothing and leave the whole
    object (text, active flag, database pointer) as it was. *)
Theorem transactions_succeed_without_effect (this : SQLQuery) :
  BeginTransaction this = mkOutcome true this [] /\
  CommitTransaction this = mkOutcome true this [] /\
  RollbackTransaction this = mkOutcome true this [].
Proof. repeat split. Qed.

(** ** The dispatch of a variant *)

Section Dispatch.

Context {St V : Type} {driver : SQLQueryMethods St}
        {variant : VariantInterface V}.
Variables (cfg : Configuration) (index : Z) (data : V) (this : St).

(** A variant of a primitive value reaches the binder of that value's
    type when the configuration compiles the arm of its kind. *)
Lemma dispatch_of_primitive (v : Primitive) :
  variant_of data v -> has_arm cfg (kind_of v) = true ->
  BindParameter_variant cfg index data this = bind_typed_spec index v this.
Proof.
  intros (Hvalid & Hkind & Hvalue) Harm.
  unfold BindParameter_variant, bind_typed_spec.
  rewrite Hvalid, Hkind; simpl.
  destruct v; simpl in *; try rewrite Harm; subst; reflexivity.
Qed.

(** A valid variant whose kind has an arm is the variant of a primitive
    value. *)
Lemma arm_holds_primitive :
  IsValid data = true -> has_arm cfg (GetType data) = true ->
  exists v : Primitive, variant_of data v.
Proof.
  intros Hvalid Harm. unfold variant_of.
  destruct (GetType data) eqn:Hkind; simpl in Harm; try discriminate.
  - exists (of_string (ToString data)); auto.
  - exists (of_float (ToFloat data)); auto.
  - exists (of_double (ToDouble data)); auto.
  - exists (of_char (ToChar data)); auto.
  - exists (of_unsigned_char (ToUnsignedChar data)); auto.
  - exists (of_signed_char (ToSignedChar data)); auto.
  - exists (of_short (ToShort data)); auto.
  - exists (of_unsigned_short (ToUnsignedShort data)); auto.
  - exists (of_int (ToInt data)); auto.
  - exists (of_unsigned_int (ToUnsignedInt data)); auto.
  - exists (of_long (ToLong data)); auto.
  - exists (of_unsigned_long (ToUnsignedLong data)); auto.
  - exists (of___int64 (To__Int64 data)); auto.
  - exists (of_unsigned___int64 (ToUnsigned__Int64 data)); auto.
  - exists (of_long_long (ToLongLong data)); auto.
  - exists (of_unsigned_long_long (ToUnsignedLongLong data)); auto.
Qed.

(** A valid variant whose kind has no arm fails in the dispatch itself. *)
Lemma dispatch_without_arm :
  IsValid data = true -> has_arm cfg (GetType data) = false ->
  BindParameter_variant cfg index data this =
  mkOutcome false this [Error (no_mapping_diagnostic (GetType data))].
Proof.
  intros Hvalid Harm. unfold BindParameter_variant, BindParameter_default.
  rewrite Hvalid; simpl.
  destruct (GetType data); simpl in *; try discriminate;
    try rewrite Harm; reflexivity.
Qed.

End Dispatch.

Lemma no_mapping_diagnostic_distinct (t : VtkType) :
  no_mapping_diagnostic t <> NO_BOUND_PARAMETERS.
Proof. destruct t; discriminate. Qed.

(** C2, as the code has it: for every driver, index and variant, a
    variant of a primitive value whose kind has an arm in the [switch]
    (string, float, double, plain, signed and unsigned char, short, int
    and long, and the four 64-bit kinds when the configuration macro of
    their arm is defined) gives the same outcome as the typed
    [BindParameter] call that C++ selects for that value, a plain [char]
    going to the [int] overload; every valid variant whose kind has an
    arm is the variant of such a value; and no such value selects the
    blob overload or one of the two character-array overloads. *)
Theorem BindParameter_variant_dispatch
  {St V : Type} {driver : SQLQueryMethods St} {variant : VariantInterface V}
  (cfg : Configuration) (index : Z) (data : V) (this : St) :
  (forall v : Primitive,
     variant_of data v -> has_arm cfg (kind_of v) = true ->
     BindParameter_variant cfg index data this
     = bind_typed_spec index v this) /\
  (IsValid data = true -> has_arm cfg (GetType data) = true ->
   exists v : Primitive, variant_of data v) /\
  (forall v : Primitive,
     (forall b n, argument_of v <> arg_blob b n) /\
     (forall s, argument_of v <> arg_chars s) /\
     (forall s n, argument_of v <> arg_chars_length s n)).
Proof.
  split; [|split].
  - intros v. apply dispatch_of_primitive.
  - apply arm_holds_primitive.
  - intros v; repeat split; intros; destruct v; discriminate.
Qed.

Lemma BindParameter_variant_dispatch_witness :
  BindParameter_variant (H := KeepingDriver) (mkConfiguration false true)
    0 (Holding (of_long_long 12345)) []
  = mkOutcome true [(0%Z, arg_Int64 12345)] [].
Proof.
  destruct (BindParameter_variant_dispatch
              (driver := KeepingDriver) (mkConfiguration false true)
              0%Z (Holding (of_long_long 12345)) []) as [H _].
  rewrite (H (of_long_long 12345)).
  - reflexivity.
  - repeat split.
  - reflexivity.
Defined.

(** C2, as the claim has it, fails for the blob kind: against a driver
    whose binders keep what they are given, no variant of any
    implementation and no configuration make the dispatch do what the
    typed blob binder does. *)
Lemma no_variant_reaches_blob_binder :
  ~ exists (V : Type) (variant : VariantInterface V)
           (cfg : Configuration) (data : V),
      BindParameter_variant (H := KeepingDriver) cfg 0 data []
      = BindParameter (H := KeepingDriver) 0 (arg_blob [Byte.x2a] 1) [].
Proof.
  intros (V & variant & cfg & data & H).
  unfold BindParameter_variant, BindParameter_default in H.
  destruct (IsValid data); simpl in H; [|discriminate H].
  destruct cfg as [[] []], (GetType data); simpl in H; discriminate H.
Qed.

(** C5: for every driver and index, binding an invalid variant returns
    true, prints nothing and leaves the object as it was; the outcome is
    the same whatever the typed binders of the driver do, none of them
    being called. *)
Theorem BindParameter_variant_null
  {St V : Type} {driver : SQLQueryMethods St} {variant : VariantInterface V}
  (cfg : Configuration) (index : Z) (data : V) (this : St) :
  IsValid data = false ->
  BindParameter_variant cfg index data this = mkOutcome true this [].
Proof.
  intros Hvalid. unfold BindParameter_variant. now rewrite Hvalid.
Qed.

Lemma BindParameter_variant_null_witness :
  BindParameter_variant (H := KeepingDriver) (mkConfiguration true true)
    3 Invalid [(0%Z, arg_int 7)]
  = mkOutcome true [(0%Z, arg_int 7)] [].
Proof.
  apply (BindParameter_variant_null (driver := KeepingDriver)).
  reflexivity.
Defined.

(** C6: for every driver and index, binding a valid variant of a kind
    that reaches no typed binder (the object kind, a kind of the
    [default:] arm) returns false, leaves the object as it was and prints
    one diagnostic, that of the [VTK_OBJECT] arm or of the [default:]
    arm; this diagnostic is never the one of the typed binders, that the
    driver does not support bound parameters. *)
Theorem BindParameter_variant_no_mapping
  {St V : Type} {driver : SQLQueryMethods St} {variant : VariantInterface V}
  (cfg : Configuration) (index : Z) (data : V) (this : St) :
  IsValid data = true -> has_arm cfg (GetType data) = false ->
  BindParameter_variant cfg index data this
  = mkOutcome false this [Error (no_mapping_diagnostic (GetType data))] /\
  no_mapping_diagnostic (GetType data) <> NO_BOUND_PARAMETERS /\
  printed (BindParameter_variant cfg index data this)
  <> printed (unsupported this).
Proof.
  intros Hvalid Harm.
  rewrite (dispatch_without_arm cfg index data this Hvalid Harm).
  split; [reflexivity|]. split.
  - apply no_mapping_diagnostic_distinct.
  - simpl. intros E. injection E as E.
    now apply no_mapping_diagnostic_distinct in E.
Qed.

Lemma BindParameter_variant_no_mapping_witness :
  BindParameter_variant (H := BaseMethods SQLQuery) (mkConfiguration true true)
    0 (ObjectReference 64) (SQLQuery_new false 0)
  = mkOutcome false (SQLQuery_new false 0) [Error OBJECT_VARIANT] /\
  OBJECT_VARIANT <> NO_BOUND_PARAMETERS.
Proof.
  assert (Hvalid : IsValid (ObjectReference 64) = true) by reflexivity.
  assert (Harm : has_arm (mkConfiguration true true)
                   (GetType (ObjectReference 64)) = false) by reflexivity.
  destruct (BindParameter_variant_no_mapping
              (driver := BaseMethods SQLQuery) (mkConfiguration true true)
              0%Z (ObjectReference 64) (SQLQuery_new false 0)
              Hvalid Harm) as (H1 & H2 & _).
  split; [exact H1 | exact H2].
Defined.

(** ** The active flag *)

Section ActiveFlag.

Context {V : Type} {variant : VariantInterface V}.
Variable cfg : Configuration.

(** The dispatch on an object that overrides nothing: the object is as
    it was, whatever the variant. *)
Lemma BindParameter_variant_base_object (index : Z) (data : V)
  (this : SQLQuery) :
  object (BindParameter_variant (H := BaseMethods SQLQuery) cfg index data this)
  = this.
Proof.
  unfold BindParameter_variant, BindParameter_default.
  destruct (IsValid data); simpl; [|reflexivity].
  destruct (GetType data), cfg as [[] []]; reflexivity.
Qed.

Lemma SetQuery_active (q : string) (this : SQLQuery) :
  m_Active (object (SetQuery q this)) = m_Active this.
Proof.
  rewrite SetQuery_cases.
  destruct (empty (m_Query this) && empty q); [reflexivity|].
  destruct (negb (empty (m_Query this)) && negb (empty q) &&
            negb (String.eqb (m_Query this) q)); reflexivity.
Qed.

Lemma SetDatabase_active (db : DatabasePointer) (this : SQLQuery) :
  m_Active (object (SetDatabase db this)) = m_Active this.
Proof.
  unfold SetDatabase, bind, get; simpl.
  destruct (same_pointer (m_Database this) db); reflexivity.
Qed.

(** No call of a base-class method writes the active flag. *)
Lemma perform_active (c : Call V) (this : SQLQuery) :
  m_Active (object (perform cfg c this)) = m_Active this.
Proof.
  destruct c; try reflexivity.
  - apply SetQuery_active.
  - apply SetDatabase_active.
  - destruct a; reflexivity.
  - unfold perform, ignore, bind; simpl.
    now rewrite BindParameter_variant_base_object.
Qed.

Lemma perform_all_active (cs : list (Call V)) (this : SQLQuery) :
  m_Active (object (perform_all cfg cs this)) = m_Active this.
Proof.
  revert this; induction cs as [|c cs IH]; intro this; [reflexivity|].
  change (m_Active (object (perform_all cfg cs (object (perform cfg c this))))
          = m_Active this).
  rewrite IH. apply perform_active.
Qed.

End ActiveFlag.

(** C10: the active flag is false in a constructed object; every call of
    a base-class method (SetQuery, GetQuery, IsActive, the transaction
    methods, the database accessors, every typed binder and the variant
    dispatch, ClearParameterBindings, both EscapeString) leaves it as it
    found it; so after any sequence of such calls on a constructed object
    [IsActive] returns false. *)
Theorem IsActive_false_under_base_calls
  {V : Type} {variant : VariantInterface V}
  (cfg : Configuration) (debug : bool) (mtime : nat) (cs : list (Call V)) :
  returned (IsActive (SQLQuery_new debug mtime)) = false /\
  (forall (c : Call V) (this : SQLQuery),
     m_Active (object (perform cfg c this)) = m_Active this) /\
  returned
    (IsActive (object (perform_all cfg cs (SQLQuery_new debug mtime))))
  = false.
Proof.
  split; [reflexivity|]. split.
  - apply perform_active.
  - change (m_Active
              (object (perform_all cfg cs (SQLQuery_new debug mtime)))
            = false).
    now rewrite perform_all_active.
Qed.

(** * Further properties *)

(** ** The escaper: size, quotes, concatenation, injectivity *)

Lemma escape_chars_append (a b : string) :
  escape_chars (a ++ b) = escape_chars a ++ escape_chars b.
Proof.
  induction a as [|c a IH]; simpl; [reflexivity|].
  destruct (Ascii.eqb c QUOTE); simpl; now rewrite IH.
Qed.

Lemma escape_chars_inj (s1 s2 : string) :
  escape_chars s1 = escape_chars s2 -> s1 = s2.
Proof.
  revert s2; induction s1 as [|c1 s1 IH]; intros [|c2 s2] H; simpl in H.
  - reflexivity.
  - destruct (Ascii.eqb c2 QUOTE); discriminate.
  - destruct (Ascii.eqb c1 QUOTE); discriminate.
  - destruct (Ascii.eqb c1 QUOTE) eqn:E1, (Ascii.eqb c2 QUOTE) eqn:E2.
    + apply Ascii.eqb_eq in E1, E2; subst.
      injection H as H. f_equal. now apply IH.
    + injection H as Hc _. subst c2.
      change (Ascii.eqb QUOTE QUOTE) with true in E2. discriminate.
    + injection H as Hc _. subst c1.
      change (Ascii.eqb QUOTE QUOTE) with true in E1. discriminate.
    + injection H as Hc H. subst. f_equal. now apply IH.
Qed.

Lemma append_inj_tail (a b : string) (c : ascii) :
  a ++ String c EmptyString = b ++ String c EmptyString -> a = b.
Proof.
  revert b; induction a as [|x a IH]; intros [|y b] H; simpl in H.
  - reflexivity.
  - injection H as _ H. destruct b; discriminate.
  - injection H as _ H. destruct a; discriminate.
  - injection H as Hx H. subst. f_equal. now apply IH.
Qed.

Lemma paired_quotes_escape_chars (s : string) :
  paired_quotes (escape_chars s) = true.
Proof.
  induction s as [|c s IH]; simpl; [reflexivity|].
  destruct (Ascii.eqb c QUOTE) eqn:E; simpl.
  - change (Ascii.eqb QUOTE QUOTE) with true. exact IH.
  - now rewrite E.
Qed.

(** A string of paired quotes of length at most [n] is an escaped string. *)
Lemma paired_quotes_is_escaped (n : nat) (t : string) :
  String.length t <= n -> paired_quotes t = true ->
  exists s, escape_chars s = t.
Proof.
  revert t; induction n as [|n IH]; intros t Hlen Hp.
  - destruct t; [exists EmptyString; reflexivity | simpl in Hlen; lia].
  - destruct t as [|c t]; [exists EmptyString; reflexivity|].
    simpl in Hp, Hlen.
    destruct (Ascii.eqb c QUOTE) eqn:E.
    + destruct t as [|c' t]; [discriminate|].
      apply andb_prop in Hp as [E' Hp].
      apply Ascii.eqb_eq in E, E'; subst.
      destruct (IH t) as [s Hs]; [simpl in Hlen; lia | exact Hp |].
      exists (String QUOTE s). simpl.
      change (Ascii.eqb QUOTE QUOTE) with true. now rewrite Hs.
    + destruct (IH t) as [s Hs]; [lia | exact Hp |].
      exists (String c s). simpl. now rewrite E, Hs.
Qed.

(** X1: the result of [EscapeString] has the length of the input, plus one
    for every single quote of it, plus two when the surrounding quotes are
    asked for; it is never shorter than the input. *)
Theorem EscapeString_length (s : string) (q : bool) :
  String.length (EscapeString s q)
  = String.length s + count_quotes s + (if q then 2 else 0) /\
  String.length s <= String.length (EscapeString s q).
Proof.
  assert (H : String.length (EscapeString s q)
              = String.length s + count_quotes s + (if q then 2 else 0)).
  { rewrite EscapeString_refines. unfold escape_spec.
    destruct q; simpl.
    - rewrite length_append, length_escape_chars. simpl. lia.
    - rewrite length_escape_chars. lia. }
  split; [exact H | lia].
Qed.

(** X2: the result of [EscapeString] holds twice the single quotes of the
    input, plus the two surrounding ones when asked for: their number is
    even for every input. *)
Theorem EscapeString_quotes_even (s : string) (q : bool) :
  count_quotes (EscapeString s q)
  = 2 * (count_quotes s + (if q then 1 else 0)).
Proof.
  rewrite EscapeString_refines. unfold escape_spec.
  destruct q; simpl.
  - change (Ascii.eqb QUOTE QUOTE) with true.
    rewrite count_quotes_append, count_quotes_escape_chars. simpl.
    change (Ascii.eqb QUOTE QUOTE) with true. lia.
  - rewrite count_quotes_escape_chars. lia.
Qed.

(** X3: [EscapeString] loses nothing: under either flag, two inputs with
    the same result are the same string. *)
Theorem EscapeString_injective (s1 s2 : string) (q : bool) :
  EscapeString s1 q = EscapeString s2 q -> s1 = s2.
Proof.
  rewrite !EscapeString_refines. unfold escape_spec.
  destruct q; intro H.
  - injection H as H. apply append_inj_tail in H.
    now apply escape_chars_inj.
  - now apply escape_chars_inj.
Qed.

Lemma EscapeString_injective_witness :
  EscapeString "a'b" true = EscapeString "a'b" true /\ "a'b" = "a'b".
Proof.
  split; [reflexivity|].
  apply (EscapeString_injective "a'b" "a'b" true). reflexivity.
Defined.

(** X4: escaping without surrounding quotes goes through concatenation,
    and the quoted result is the unquoted one between two single quotes:
    a literal can be escaped piece by piece. *)
Theorem EscapeString_concatenation (a b : string) :
  EscapeString (a ++ b) false = EscapeString a false ++ EscapeString b false /\
  EscapeString (a ++ b) true
  = String QUOTE
      (EscapeString a false ++ EscapeString b false ++ String QUOTE EmptyString).
Proof.
  rewrite !EscapeString_refines. unfold escape_spec.
  rewrite escape_chars_append. split; [reflexivity|].
  now rewrite append_assoc.
Qed.

(** X5: in the unquoted result every single quote stands in a pair of
    adjacent single quotes, so that no single quote of the input can end
    the literal whose body it is; and the unquoted results are exactly
    the strings of paired quotes. *)
Theorem EscapeString_quotes_paired (s t : string) :
  paired_quotes (EscapeString s false) = true /\
  (paired_quotes t = true <-> exists s', EscapeString s' false = t).
Proof.
  split.
  - rewrite EscapeString_unquoted. apply paired_quotes_escape_chars.
  - split.
    + intro Hp.
      destruct (paired_quotes_is_escaped (String.length t) t (le_n _) Hp)
        as [s' Hs'].
      exists s'. now rewrite EscapeString_unquoted.
    + intros [s' Hs']. rewrite <- Hs', EscapeString_unquoted.
      apply paired_quotes_escape_chars.
Qed.

(** ** The query text: what a call keeps and what it changes *)

Lemma empty_iff (s : string) : empty s = true <-> s = EmptyString.
Proof. destruct s; simpl; split; congruence. Qed.


Lemma nul_free_string_at (s : string) : nul_free (string_at s) = true.
Proof.
  induction s as [|c s IH]; simpl; [reflexivity|].
  destruct (Ascii.eqb c NUL) eqn:E; simpl; [reflexivity|].
  now rewrite E.
Qed.

(** The text after a call is the old text or the C string of the new. *)
Lemma SetQuery_text (q : string) (this : SQLQuery) :
  m_Query (object (SetQuery q this)) = m_Query this \/
  m_Query (object (SetQuery q this)) = string_at q.
Proof.
  rewrite SetQuery_cases.
  destruct (empty (m_Query this) && empty q); [now left|].
  destruct (negb (empty (m_Query this)) && negb (empty q) &&
            negb (String.eqb (m_Query this) q)); [now left | now right].
Qed.

Lemma SetQuery_nul_free (q : string) (this : SQLQuery) :
  nul_free (m_Query this) = true ->
  nul_free (m_Query (object (SetQuery q this))) = true.
Proof.
  intro H. destruct (SetQuery_text q this) as [E|E]; rewrite E;
    [exact H | apply nul_free_string_at].
Qed.








(** ** Sequences of base-class calls: what they keep *)

Section CallSequences.

Context {V : Type} {variant : VariantInterface V}.
Variable cfg : Configuration.

Lemma perform_all_cons (c : Call V) (cs : list (Call V)) (this : SQLQuery) :
  object (perform_all cfg (c :: cs) this)
  = object (perform_all cfg cs (object (perform cfg c this))).
Proof. reflexivity. Qed.

(** A call that is not a setter leaves the whole object as it was. *)
Lemma perform_non_setter (c : Call V) (this : SQLQuery) :
  is_setter c = false -> object (perform cfg c this) = this.
Proof.
  destruct c; simpl; intro H; try discriminate; try reflexivity.
  - destruct a; reflexivity.
  - unfold ignore, bind; simpl.
    apply BindParameter_variant_base_object.
Qed.

Lemma SetDatabase_cases (db : DatabasePointer) (this : SQLQuery) :
  SetDatabase db this =
  if same_pointer (m_Database this) db
  then mkOutcome tt this []
  else mkOutcome tt
         (mkSQLQuery (Debug this) (S (MTime this)) (m_Query this) db
                     (m_Active this)) [].
Proof.
  unfold SetDatabase, bind, get; simpl.
  destruct (same_pointer (m_Database this) db); reflexivity.
Qed.


(** What one call does to the members other than the active flag. *)
Lemma perform_frame (c : Call V) (this : SQLQuery) :
  let after := object (perform cfg c this) in
  Debug after = Debug this /\
  MTime this <= MTime after <= S (MTime this) /\
  (nul_free (m_Query this) = true -> nul_free (m_Query after) = true) /\
  (is_SetDatabase c = false -> m_Database after = m_Database this).
Proof.
  cbv zeta.
  destruct (is_setter c) eqn:Hs.
  - destruct c; try discriminate Hs.
    + change (object (perform cfg (call_SetQuery query) this))
        with (object (SetQuery query this)).
      split; [|split; [|split]].
      * rewrite SetQuery_cases.
        destruct (empty (m_Query this) && empty query); [reflexivity|].
        destruct (negb (empty (m_Query this)) && negb (empty query) &&
                  negb (String.eqb (m_Query this) query)); reflexivity.
      * rewrite SetQuery_cases.
        destruct (empty (m_Query this) && empty query); simpl; [lia|].
        destruct (negb (empty (m_Query this)) && negb (empty query) &&
                  negb (String.eqb (m_Query this) query)); simpl; lia.
      * apply SetQuery_nul_free.
      * intros _. rewrite SetQuery_cases.
        destruct (empty (m_Query this) && empty query); [reflexivity|].
        destruct (negb (empty (m_Query this)) && negb (empty query) &&
                  negb (String.eqb (m_Query this) query)); reflexivity.
    + change (object (perform cfg (call_SetDatabase db) this))
        with (object (SetDatabase db this)).
      rewrite SetDatabase_cases.
      destruct (same_pointer (m_Database this) db); simpl;
        repeat split; auto; try lia; discriminate.
  - rewrite (perform_non_setter c this Hs). repeat split; auto.
Qed.

Lemma perform_all_frame (cs : list (Call V)) (this : SQLQuery) :
  let after := object (perform_all cfg cs this) in
  Debug after = Debug this /\
  MTime this <= MTime after <= MTime this + List.length cs /\
  (nul_free (m_Query this) = true -> nul_free (m_Query after) = true) /\
  (forallb (fun c => negb (is_SetDatabase c)) cs = true ->
   m_Database after = m_Database this).
Proof.
  cbv zeta. revert this; induction cs as [|c cs IH]; intro this.
  - simpl. repeat split; auto; lia.
  - rewrite perform_all_cons.
    destruct (IH (object (perform cfg c this))) as (Hd & Hm & Hn & Hdb).
    destruct (perform_frame c this) as (Hd1 & Hm1 & Hn1 & Hdb1).
    repeat split.
    + congruence.
    + lia.
    + simpl List.length. lia.
    + auto.
    + simpl. intro H. apply andb_prop in H as [H1 H2].
      rewrite Hdb by exact H2. apply Hdb1.
      now destruct (is_SetDatabase c).
Qed.

End CallSequences.



(** X11: the database pointer is written by [SetDatabase] alone: a
    sequence of base-class calls without it leaves the pointer as it was. *)
Theorem database_kept_without_SetDatabase
  {V : Type} {variant : VariantInterface V}
  (cfg : Configuration) (cs : list (Call V)) (this : SQLQuery) :
  forallb (fun c => negb (is_SetDatabase c)) cs = true ->
  returned (GetDatabase (object (perform_all cfg cs this)))
  = m_Database this.
Proof.
  intro H.
  destruct (perform_all_frame cfg cs this) as (_ & _ & _ & Hdb).
  exact (Hdb H).
Qed.

Lemma database_kept_without_SetDatabase_witness :
  returned
    (GetDatabase
       (object
          (perform_all (V := vtkVariant) (mkConfiguration true true)
             [call_SetQuery "SELECT 1"; call_BindParameter 0 (arg_int 5);
              call_BeginTransaction]
             (mkSQLQuery false 0 EmptyString (Some 7) false))))
  = Some 7.
Proof.
  apply (database_kept_without_SetDatabase (V := vtkVariant)).
  reflexivity.
Defined.

(** X12: only the two setters write the object: a sequence of base-class
    calls with neither [SetQuery] nor [SetDatabase] (getters, binders,
    the dispatch, transactions, escaping) leaves the whole object as it
    was. *)
Theorem object_kept_without_setters
  {V : Type} {variant : VariantInterface V}
  (cfg : Configuration) (cs : list (Call V)) (this : SQLQuery) :
  forallb (fun c => negb (is_setter c)) cs = true ->
  object (perform_all cfg cs this) = this.
Proof.
  revert this; induction cs as [|c cs IH]; intros this H; [reflexivity|].
  simpl in H. apply andb_prop in H as [H1 H2].
  rewrite perform_all_cons, perform_non_setter.
  - now apply IH.
  - now destruct (is_setter c).
Qed.

Lemma object_kept_without_setters_witness :
  object
    (perform_all (V := vtkVariant) (mkConfiguration true true)
       [call_GetQuery; call_BindParameter_variant 1 (Holding (of_int 5));
        call_ClearParameterBindings; call_EscapeString "a'b" true]
       (mkSQLQuery true 3 "SELECT 1" (Some 7) false))
  = mkSQLQuery true 3 "SELECT 1" (Some 7) false.
Proof.
  apply (object_kept_without_setters (V := vtkVariant)).
  reflexivity.
Defined.



(** ** The database pointer *)


(** ** The dispatch: one typed call at most *)

Section DispatchShape.

Context {St V : Type} {driver : SQLQueryMethods St}
        {variant : VariantInterface V}.
Variables (cfg : Configuration) (index : Z) (data : V) (this : St).

(** The dispatch is a success that does nothing, a failure of its own
    that leaves the object as it was, or one typed call. *)
Lemma dispatch_shape :
  (IsValid data = false /\
   BindParameter_variant cfg index data this = mkOutcome true this []) \/
  (IsValid data = true /\ has_arm cfg (GetType data) = false /\
   BindParameter_variant cfg index data this
   = mkOutcome false this [Error (no_mapping_diagnostic (GetType data))]) \/
  (exists v : Primitive,
     variant_of data v /\ has_arm cfg (GetType data) = true /\
     BindParameter_variant cfg index data this
     = BindParameter index (argument_of v) this).
Proof.
  destruct (IsValid data) eqn:Hvalid.
  - destruct (has_arm cfg (GetType data)) eqn:Harm.
    + right; right.
      destruct (arm_holds_primitive cfg data Hvalid Harm) as [v Hv].
      exists v. split; [exact Hv|]. split; [reflexivity|].
      apply dispatch_of_primitive; [exact Hv|].
      destruct Hv as (_ & Hkind & _). now rewrite <- Hkind.
    + right; left. split; [reflexivity|]. split; [reflexivity|].
      now apply dispatch_without_arm.
  - left. split; [reflexivity|].
    unfold BindParameter_variant. now rewrite Hvalid.
Qed.

End DispatchShape.

(** X15: for every driver, the dispatch of a variant is one of three
    things: for an invalid variant a success that does and prints
    nothing; for a valid variant of a kind without arm a failure that
    leaves the object as it was and prints the diagnostic of the
    dispatch; otherwise exactly one call of a typed binder, with the
    index it was given and the value the variant holds. *)
Theorem BindParameter_variant_one_call
  {St V : Type} {driver : SQLQueryMethods St} {variant : VariantInterface V}
  (cfg : Configuration) (index : Z) (data : V) (this : St) :
  (IsValid data = false /\
   BindParameter_variant cfg index data this = mkOutcome true this []) \/
  (IsValid data = true /\ has_arm cfg (GetType data) = false /\
   BindParameter_variant cfg index data this
   = mkOutcome false this [Error (no_mapping_diagnostic (GetType data))]) \/
  (exists v : Primitive,
     variant_of data v /\ has_arm cfg (GetType data) = true /\
     BindParameter_variant cfg index data this
     = BindParameter index (argument_of v) this).
Proof. apply dispatch_shape. Qed.

(** X16: the dispatch adds no effect of its own: for every driver, a
    property of the object that each typed binder keeps when called with
    the given index is kept by the dispatch. *)
Theorem BindParameter_variant_keeps_invariant
  {St V : Type} {driver : SQLQueryMethods St} {variant : VariantInterface V}
  (P : St -> Prop) (cfg : Configuration) (index : Z) (data : V) (this : St) :
  (forall (a : Argument) (s : St),
     P s -> P (object (BindParameter index a s))) ->
  P this ->
  P (object (BindParameter_variant cfg index data this)).
Proof.
  intros Hstep Hthis.
  destruct (dispatch_shape cfg index data this)
    as [[_ E] | [(_ & _ & E) | (v & _ & _ & E)]]; rewrite E.
  - exact Hthis.
  - exact Hthis.
  - now apply Hstep.
Qed.

Lemma BindParameter_variant_keeps_invariant_witness :
  Forall (fun b : Z * Argument => fst b = 3%Z)
    (object
       (BindParameter_variant (H := KeepingDriver) (mkConfiguration true true)
          3 (Holding (of_string "abc")) [(3%Z, arg_int 1)])).
Proof.
  apply (BindParameter_variant_keeps_invariant (driver := KeepingDriver)
           (fun s => Forall (fun b : Z * Argument => fst b = 3%Z) s)).
  - intros a s Hs. destruct a; simpl;
      (apply Forall_app; split; [exact Hs | repeat constructor]).
  - repeat constructor.
Defined.

(** X17: on an object that overrides nothing the dispatch succeeds
    exactly for an invalid variant; for a valid one it returns false,
    leaves the object as it was and prints one diagnostic: that the
    driver does not support bound parameters when the kind has an arm,
    the diagnostic of the dispatch when it has none. *)
Theorem BindParameter_variant_base
  {V : Type} {variant : VariantInterface V}
  (cfg : Configuration) (index : Z) (data : V) (this : SQLQuery) :
  BindParameter_variant (H := BaseMethods SQLQuery) cfg index data this
  = if IsValid data
    then mkOutcome false this
           [Error (base_dispatch_diagnostic cfg (GetType data))]
    else mkOutcome true this [].
Proof.
  unfold BindParameter_variant, BindParameter_default,
    base_dispatch_diagnostic.
  destruct (IsValid data); simpl; [|reflexivity].
  destruct (GetType data), cfg as [[] []]; reflexivity.
Qed.
